(** * Potential-field reactive navigation: a model of the notebook's code

    The notebook [8-Motion_planning-1-Potential_Fields.ipynb] defines three
    Python functions, [repulsive_force], [attractive_force] and [main].
    They are embedded here as Rocq functions over

    - binary64 floating-point numbers (numpy's [float64]), Rocq's primitive
      [float];
    - a small type of Python values ([None], floats, 2xN arrays, lists of
      plot handles), because the code binds [None] to variables that are
      later used as arrays;
    - a state-and-exception monad over the matplotlib figure the code
      draws on. *)

From Stdlib Require Import Floats ZArith List String Bool Lia Sorted.
Import ListNotations.

(** ** Exceptions and results *)

Inductive exn : Set :=
| TypeError
| ValueError
| IndexError
| AttributeError
| ZeroDivisionError.

Inductive result (A : Type) : Type :=
| Ok (a : A)
| Raise (e : exn).

Arguments Ok {A} a.
Arguments Raise {A} e.

Definition rbind {A B : Type} (r : result A) (f : A -> result B) : result B :=
  match r with
  | Ok a => f a
  | Raise e => Raise e
  end.


(** ** Arrays

    Every array of the notebook has two rows.  A 2xN array is kept as the
    list of its N columns; a column vector ([x,y]') is one [vec2]. *)

Record vec2 : Set := mkvec { vx : float; vy : float }.

Definition ndarray : Set := list vec2.

Definition vsub (a b : vec2) : vec2 :=
  mkvec (vx a - vx b) (vy a - vy b).

Definition vadd (a b : vec2) : vec2 :=
  mkvec (vx a + vx b) (vy a + vy b).

Definition vdiv (a b : vec2) : vec2 :=
  mkvec (vx a / vx b) (vy a / vy b).

Definition vmap (f : float -> float) (a : vec2) : vec2 :=
  mkvec (f (vx a)) (f (vy a)).

(** [np.sqrt(np.sum(c**2, axis=0))] for one column [c]. *)
Definition col_norm (c : vec2) : float :=
  PrimFloat.sqrt (vx c * vx c + vy c * vy c).

(** [np.where(mask)[0]]: the positions at which the mask holds, ascending. *)
Fixpoint where_from (i : nat) (mask : list bool) : list nat :=
  match mask with
  | [] => []
  | b :: m => if b then i :: where_from (S i) m else where_from (S i) m
  end.

Definition np_where (mask : list bool) : list nat := where_from 0 mask.

(** [a[idx]] for an index array [idx]; numpy raises [IndexError] on an
    index that is out of bounds. *)
Fixpoint take_idx {A : Type} (a : list A) (idx : list nat) : result (list A) :=
  match idx with
  | [] => Ok []
  | i :: rest =>
      match nth_error a i with
      | Some x => rbind (take_idx a rest) (fun xs => Ok (x :: xs))
      | None => Raise IndexError
      end
  end.

(** ** Python values *)

(** A plot handle stands for the [Line2D] object [plot] returns; objects are
    told apart by their identity. *)
Definition handle : Set := nat.

Inductive value : Set :=
| VNone
| VFloat (f : float)
| VArray (a : ndarray)
| VList (hs : list handle).

(** [a /= b].  [None] has neither [__itruediv__] nor [__truediv__], and no
    right operand of the notebook divides into [None]: [TypeError].  An
    array is divided in place, so the operand has to broadcast to the
    array's own shape; the empty list is an empty array of floats, a list of
    handles an array of objects that cannot be divided by. *)
Definition itruediv (a b : value) : result value :=
  match a, b with
  | VNone, _ => Raise TypeError
  | VFloat x, VFloat y =>
      if (y =? 0)%float then Raise ZeroDivisionError else Ok (VFloat (x / y))
  | VFloat x, VArray ys => Ok (VArray (map (vmap (fun y => x / y)%float) ys))
  | VArray xs, VFloat y => Ok (VArray (map (vmap (fun x => x / y)%float) xs))
  | VArray xs, VArray [c] => Ok (VArray (map (fun x => vdiv x c) xs))
  | VArray xs, VArray ys =>
      if Nat.eqb (List.length xs) (List.length ys)
      then Ok (VArray (map (fun p => vdiv (fst p) (snd p)) (combine xs ys)))
      else Raise ValueError
  | VArray [], VList [] => Ok (VArray [])
  | VArray (_ :: _), VList [] => Raise ValueError
  | _, _ => Raise TypeError
  end.

(** [x += v] for the 2x1 array [x]: the sum is written back into [x], so
    the operand has to broadcast to one column. *)
Definition iadd_column (x : vec2) (v : value) : result vec2 :=
  match v with
  | VArray [c] => Ok (vadd x c)
  | VArray _ => Raise ValueError
  | VFloat f => Ok (vmap (fun a => a + f)%float x)
  | VNone => Raise TypeError
  | VList [] => Raise ValueError
  | VList (_ :: _) => Raise TypeError
  end.

(** [v[i, 0]] for a row index [i]. *)
Definition getitem_col0 (v : value) (i : nat) : result float :=
  match v with
  | VArray (c :: _) =>
      match i with
      | 0 => Ok (vx c)
      | 1 => Ok (vy c)
      | _ => Raise IndexError
      end
  | VArray [] => Raise IndexError
  | VFloat _ => Raise TypeError
  | VNone => Raise TypeError
  | VList _ => Raise TypeError
  end.

(** [v.pop(0)]: the first element and the list that is left. *)
Definition pop0 (v : value) : result (handle * value) :=
  match v with
  | VList (h :: hs) => Ok (h, VList hs)
  | VList [] => Raise IndexError
  | _ => Raise AttributeError
  end.

(** ** The figure and the monad of the drawing code *)

Record Line2D : Set := mkline {
  line_id : handle;
  xdata : list float;
  ydata : list float;
  fmt : string
}.

(** What the program does besides drawing, in the order it happens.  The
    two [Call] events are recorded by the control loop at the call sites of
    the force functions. *)
Inductive event : Set :=
| Stdout (label : string) (v : vec2)
| Pause
| WaitForButtonPress
| CallRepulsive (xRobot : vec2)
| CallAttractive (KGoal : float) (GoalError : vec2).

Record world : Set := mkworld {
  lines : list Line2D;
  next_id : handle;
  suptitle : string;
  events : list event
}.

Definition M (A : Type) : Type := world -> result A * world.

Definition ret {A : Type} (a : A) : M A := fun w => (Ok a, w).

Definition bind {A B : Type} (m : M A) (f : A -> M B) : M B :=
  fun w =>
    match m w with
    | (Ok a, w') => f a w'
    | (Raise e, w') => (Raise e, w')
    end.

Definition lift {A : Type} (r : result A) : M A := fun w => (r, w).

Declare Scope py_scope.
Delimit Scope py_scope with py.
Notation "x <- m ;; k" := (bind m (fun x => k))
  (at level 100, m at next level, right associativity) : py_scope.
Notation "' p <- m ;; k" := (bind m (fun x => match x with p => k end))
  (at level 100, p pattern, m at next level, right associativity) : py_scope.
Open Scope py_scope.

(** [plt.plot(xs, ys, fmt)]: a new line on the current axes; the call
    returns the list holding its handle. *)
Definition plt_plot (xs ys : list float) (f : string) : M value :=
  fun w =>
    (Ok (VList [next_id w]),
     mkworld (lines w ++ [mkline (next_id w) xs ys f])
             (S (next_id w)) (suptitle w) (events w)).

(** [h.remove()]: the artist leaves the axes; for a line that is no longer
    on the axes matplotlib's removal from the list of lines raises
    [ValueError]. *)
Definition artist_remove (h : handle) : M unit :=
  fun w =>
    if existsb (fun l => Nat.eqb (line_id l) h) (lines w)
    then (Ok tt,
          mkworld (filter (fun l => negb (Nat.eqb (line_id l) h)) (lines w))
                  (next_id w) (suptitle w) (events w))
    else (Raise ValueError, w).

Definition emit (e : event) : M unit :=
  fun w => (Ok tt, mkworld (lines w) (next_id w) (suptitle w) (events w ++ [e])).

Definition set_suptitle (s : string) : M unit :=
  fun w => (Ok tt, mkworld (lines w) (next_id w) s (events w)).

(** ** [repulsive_force] *)

(** [q = xRobot - Map] *)
Definition rf_q (xRobot : vec2) (Map : ndarray) : ndarray :=
  map (fun o => vsub xRobot o) Map.

(** [r = np.sqrt(np.sum(q**2, axis=0))] *)
Definition rf_r (q : ndarray) : list float := map col_norm q.

(** [iInfluential = np.where(r < RadiusOfInfluence)[0]] *)
Definition rf_iInfluential (xRobot : vec2) (Map : ndarray)
    (RadiusOfInfluence : float) : list nat :=
  np_where (map (fun ri => ri <? RadiusOfInfluence)%float (rf_r (rf_q xRobot Map))).

(** [q = q[:, iInfluential]] and [r = r[iInfluential]], the data the branch
    for close obstacles keeps. *)
Definition rf_selected (xRobot : vec2) (Map : ndarray)
    (RadiusOfInfluence : float) : result (ndarray * list float) :=
  let q := rf_q xRobot Map in
  let r := rf_r q in
  let iInfluential := rf_iInfluential xRobot Map RadiusOfInfluence in
  rbind (take_idx q iInfluential) (fun q' =>
  rbind (take_idx r iInfluential) (fun r' =>
  Ok (q', r'))).

Definition repulsive_force (xRobot : vec2) (Map : ndarray)
    (RadiusOfInfluence KObstacles : float) : M (value * value) :=
  let iInfluential := rf_iInfluential xRobot Map RadiusOfInfluence in
  if Nat.ltb 0 (List.length iInfluential) then
    ' (q, r) <- lift (rf_selected xRobot Map RadiusOfInfluence) ;;
    let FRep := VNone in
    xs <- lift (take_idx (map vx Map) iInfluential) ;;
    ys <- lift (take_idx (map vy Map) iInfluential) ;;
    hInfluentialObstacles <- plt_plot xs ys "kx" ;;
    ret (FRep, hInfluentialObstacles)
  else
    (* Nothing close *)
    let FRep := VNone in
    let hInfluentialObstacles := VNone in
    ret (FRep, hInfluentialObstacles).

(** ** [attractive_force] *)

Definition attractive_force (KGoal : float) (GoalError : vec2) : result value :=
  let FAtt := VNone in
  rbind (itruediv FAtt VNone) (fun FAtt =>   (* Normalization *)
  Ok FAtt).

(** ** [main]: the simulation *)

(** One way [scipy.linalg.norm(a)] can compute the norm of a 2x1 array: the
    input is checked with [asarray_chkfinite] ([ValueError] on an infinity
    or a NaN), then the squares are rounded, added and the root taken, each
    operation rounding on its own. *)
Definition rounded_norm (a : vec2) : result float :=
  if PrimFloat.is_finite (vx a) && PrimFloat.is_finite (vy a)
  then Ok (col_norm a)
  else Raise ValueError.

(** A robot pose [np.vstack([xRobot, Theta])] as [DrawRobot] receives it. *)
Record pose : Set := mkpose { position : vec2; heading : float }.

(** What [main] calls and the notebook does not define: [DrawRobot] of
    [utils/DrawRobot.py], which draws on the figure and returns the list of
    the handles it drew; numpy's [arctan2]; and [scipy.linalg.norm], which
    hands a 2x1 array to numpy's [sqrt(x.dot(x))].  How the dot product
    rounds is the BLAS library's choice (with a fused multiply-add the
    result can differ in the last place from the one obtained by rounding
    each operation), so the norm is taken as the library gives it.  The one
    fact used about it holds however the dot product rounds: the norm of
    the zero vector is 0. *)
Class Externals : Type := {
  DrawRobot : pose -> M value;
  np_arctan2 : float -> float -> float;
  linalg_norm : vec2 -> result float;
  linalg_norm_zero : linalg_norm (mkvec 0 0) = Ok 0%float
}.

(** The keyword parameters of [main]. *)
Record config : Set := mkconfig {
  nObstacles : nat;
  MapSize : float;
  RadiusOfInfluence : float;
  KGoal : float;
  KObstacles : float;
  nMaxSteps : Z;
  NON_STOP : bool
}.

Definition defaults : config := mkconfig 175 100 10 1 250 300 true.

(** What the outside world supplies to a run of [main]: the sample
    [random.rand(2, n)] draws and the points the two [ginput(1)] calls
    return (no point when the user lets them time out). *)
Record inputs : Set := mkinputs {
  random_rand : nat -> ndarray;
  click_start : list (float * float);
  click_goal : list (float * float)
}.

(** The variables the [while] loop reads and writes. *)
Record loop_state : Set := mkstate {
  xRobot : vec2;
  GoalError : vec2;
  k : Z;
  hRob : value
}.

(** The conjunct of the loop condition that ended the loop:
    [linalg.norm(GoalError) > 1] was false, or else [k < nMaxSteps] was. *)
Inductive status : Set := Reached | Exhausted.

Section Simulation.

Context {E : Externals}.
Variable Map : ndarray.
Variable xGoal : vec2.
Variable cfg : config.

(** The tick from [FTotal = None] on, for the forces just computed. *)
Definition apply_forces (FRep hInfluentialObstacles FAtt : value)
    (st : loop_state) : M loop_state :=
  (* Point 1.3: TODO Compute total (attractive+repulsive) potential field *)
  let FTotal := VNone in
  xRobot' <- lift (iadd_column (xRobot st) FTotal) ;;
  fy <- lift (getitem_col0 FTotal 1) ;;
  fx <- lift (getitem_col0 FTotal 0) ;;
  let Theta := np_arctan2 fy fx in
  ' (h, _) <- lift (pop0 (hRob st)) ;;
  _ <- artist_remove h ;;
  hRob' <- DrawRobot (mkpose xRobot' Theta) ;;
  _ <- (if NON_STOP cfg then emit Pause else emit WaitForButtonPress) ;;
  _ <- match hInfluentialObstacles with
       | VNone => ret tt
       | _ => ' (h, _) <- lift (pop0 hInfluentialObstacles) ;; artist_remove h
       end ;;
  (* Update termination conditions *)
  ret (mkstate xRobot' (vsub xRobot' xGoal) (k st + 1) hRob').

(** One pass through the body of the [while] loop. *)
Definition tick (st : loop_state) : M loop_state :=
  _ <- emit (CallRepulsive (xRobot st)) ;;
  ' (FRep, hInfluentialObstacles) <-
    repulsive_force (xRobot st) Map (RadiusOfInfluence cfg) (KObstacles cfg) ;;
  _ <- emit (CallAttractive (KGoal cfg) (GoalError st)) ;;
  FAtt <- lift (attractive_force (KGoal cfg) (GoalError st)) ;;
  apply_forces FRep hInfluentialObstacles FAtt st.

(** [while linalg.norm(GoalError) > 1 and k < nMaxSteps: ...], unrolled
    at most [fuel] times; [None] when the fuel does not suffice. *)
Fixpoint while_loop (fuel : nat) (st : loop_state)
    : M (option (status * loop_state)) :=
  match fuel with
  | O => ret None
  | S fuel' =>
      n <- lift (linalg_norm (GoalError st)) ;;
      if negb (1 <? n)%float then ret (Some (Reached, st))
      else if negb (k st <? nMaxSteps cfg)%Z then ret (Some (Exhausted, st))
      else st' <- tick st ;; while_loop fuel' st'
  end.

(** The part of [main] from "Initialization of useful vbles" on. *)
Definition simulation (xStart : vec2) (hRob0 : value)
    : M (option (status * loop_state)) :=
  let xRobot := xStart in
  let GoalError := vsub xRobot xGoal in
  let k := 0%Z in
  while_loop (S (Z.to_nat (nMaxSteps cfg))) (mkstate xRobot GoalError k hRob0).

End Simulation.

(** [np.vstack(plt.ginput(1)).T] *)
Definition vstack_T (pts : list (float * float)) : result vec2 :=
  match pts with
  | [] => Raise ValueError
  | (x, y) :: _ => Ok (mkvec x y)
  end.

(** [fig, ax = plt.subplots()]: a new, empty figure becomes the current one. *)
Definition plt_subplots : M unit :=
  fun w => (Ok tt, mkworld [] (next_id w) "" (events w)).

Definition main {E : Externals} (inp : inputs) (cfg : config)
    : M (option (status * loop_state)) :=
  let Map := map (vmap (fun u => MapSize cfg * u)%float)
                 (random_rand inp (nObstacles cfg)) in
  _ <- plt_subplots ;;
  _ <- plt_plot (map vx Map) (map vy Map) "ro" ;;
  _ <- set_suptitle "Click to choose starting point:" ;;
  xStart <- lift (vstack_T (click_start inp)) ;;
  _ <- emit (Stdout "Starts at:" xStart) ;;
  _ <- set_suptitle "Click to choose end goal:" ;;
  xGoal <- lift (vstack_T (click_goal inp)) ;;
  _ <- emit (Stdout "Goal at:" xGoal) ;;
  _ <- set_suptitle "" ;;
  _ <- plt_plot [vx xGoal] [vy xGoal] "g*" ;;
  hRob0 <- DrawRobot (mkpose xStart 0) ;;
  simulation Map xGoal cfg xStart hRob0.

(** ** Vocabulary of the properties *)

(** The test of [np.where(r < RadiusOfInfluence)] for the obstacle [o]. *)
Definition influential (xRobot : vec2) (RadiusOfInfluence : float)
    (o : vec2) : bool :=
  (col_norm (vsub xRobot o) <? RadiusOfInfluence)%float.

(** The map without its column [i] ([np.delete(Map, i, axis=1)]). *)
Definition delete_col (i : nat) (Map : ndarray) : ndarray :=
  firstn i Map ++ skipn (S i) Map.

Definition add_line (l : Line2D) (w : world) : world :=
  mkworld (lines w ++ [l]) (S (next_id w)) (suptitle w) (events w).

Definition add_event (e : event) (w : world) : world :=
  mkworld (lines w) (next_id w) (suptitle w) (events w ++ [e]).

(** The markers [repulsive_force] plots for a map. *)
Definition markers (xRobot : vec2) (Map : ndarray) (RadiusOfInfluence : float)
    (id : handle) : Line2D :=
  let close := filter (influential xRobot RadiusOfInfluence) Map in
  mkline id (map vx close) (map vy close) "kx".

(** The figure after the two force calls of a tick. *)
Definition after_forces (Map : ndarray) (cfg : config) (st : loop_state)
    (w : world) : world :=
  add_event (CallAttractive (KGoal cfg) (GoalError st))
    (snd (repulsive_force (xRobot st) Map (RadiusOfInfluence cfg)
            (KObstacles cfg) (add_event (CallRepulsive (xRobot st)) w))).

(** A computation whose result does not depend on the figure and that
    leaves the figure as it found it. *)
Definition pure_call {A : Type} (m : M A) : Prop :=
  exists r : result A, forall w : world, m w = (r, w).

Definition result_map {A B : Type} (f : A -> B) (r : result A) : result B :=
  rbind r (fun a => Ok (f a)).


(** [|a - b| < tol] *)
Definition close_to (tol a b : float) : bool := (abs (a - b) <? tol)%float.

(** ** The forces as the specification words them

    Section 4.1: [F_i = Kobstacles (1/r_i - 1/RadiusOfInfluence) (1/r_i^2)
    (q_i / r_i)] summed over the influential obstacles, the zero vector when
    there is none.  Section 4.2: [F_att = - Kgoal error / |error|]. *)

Definition spec_contribution (KObstacles RadiusOfInfluence : float)
    (q : vec2) : vec2 :=
  let r := col_norm q in
  vmap (fun c => KObstacles * (1 / r - 1 / RadiusOfInfluence)
                 * (1 / (r * r)) * (c / r))%float q.

Definition spec_repulsive_force (xRobot : vec2) (Map : ndarray)
    (RadiusOfInfluence KObstacles : float) : vec2 :=
  fold_left vadd
    (map (fun o => spec_contribution KObstacles RadiusOfInfluence (vsub xRobot o))
         (filter (influential xRobot RadiusOfInfluence) Map))
    (mkvec 0 0).

Definition spec_attractive_force (KGoal : float) (GoalError : vec2) : vec2 :=
  vmap (fun c => - KGoal * c / col_norm GoalError)%float GoalError.



(** ** The inputs of the notebook's "TRY IT!" cells, and a figure *)

Set Warnings "-inexact-float".

Definition try_xRobot : vec2 := mkvec 1 2.

Definition try_Map : ndarray := [mkvec 1.1 2.2; mkvec 2.4 1.4; mkvec 3.5 4.5].

Definition try_GoalError : vec2 := mkvec 2.3 1.4.

Definition empty_figure : world := mkworld [] 0 "" [].

(** The sum [y*y + a] rounded once, as a fused multiply-add computes it:
    the exact square of [y] is added to [a] and the sum is rounded. *)
Definition sf_square_exact (y : spec_float) : spec_float :=
  match y with
  | S754_nan => S754_nan
  | S754_infinity _ => S754_infinity false
  | S754_zero _ => S754_zero false
  | S754_finite _ m e => S754_finite false (m * m) (2 * e)
  end.

Definition fma_square (y a : float) : float :=
  SF2Prim
    match sf_square_exact (Prim2SF y), Prim2SF a with
    | S754_finite _ m e, S754_zero _ => binary_normalize prec emax (Z.pos m) e false
    | y2, a' => SF64add y2 a'
    end.

(** The norm as a BLAS dot product with a fused multiply-add gives it:
    [sqrt(fma(y, y, x*x))]. *)
Definition fused_norm (a : vec2) : result float :=
  if PrimFloat.is_finite (vx a) && PrimFloat.is_finite (vy a)
  then Ok (PrimFloat.sqrt (fma_square (vy a) (vx a * vx a)))
  else Raise ValueError.

(** Implementations of the interface on which the model can be run: the
    robot is drawn as one marker, the heading reported is always 0, and the
    norm is computed in one of the two ways. *)
Definition marker_externals_with (norm : vec2 -> result float)
    (norm_zero : norm (mkvec 0 0) = Ok 0%float) : Externals := {|
  DrawRobot := fun p => plt_plot [vx (position p)] [vy (position p)] "b^";
  np_arctan2 := fun _ _ => 0%float;
  linalg_norm := norm;
  linalg_norm_zero := norm_zero
|}.

Definition marker_externals : Externals :=
  marker_externals_with rounded_norm eq_refl.

Definition fused_externals : Externals :=
  marker_externals_with fused_norm eq_refl.

(** Inputs for a run of [main]: every obstacle sampled at (0.5, 0.5), i.e.
    placed at the centre of the map, and the two clicks given. *)
Definition clicks (start goal : list (float * float)) : inputs :=
  mkinputs (fun n => repeat (mkvec 0.5 0.5) n) start goal.

(** ** Vocabulary of further properties *)

(** A binary64 value that is a NaN or has no minus sign on a non-zero
    magnitude. *)
Definition sf_not_negative (f : spec_float) : Prop :=
  match f with
  | S754_nan => True
  | S754_zero _ => True
  | S754_infinity s => s = false
  | S754_finite s _ _ => s = false
  end.

(** The lines on the figure carry handles [plot] has already given out. *)
Definition fresh_ids (w : world) : Prop :=
  Forall (fun l => line_id l < next_id w) (lines w).

(** [if hInfluentialObstacles is not None:
        hInfluentialObstacles.pop(0).remove()], the statement of the loop
    that takes the markers of a tick off the figure. *)
Definition remove_markers (hInfluentialObstacles : value) : M unit :=
  match hInfluentialObstacles with
  | VNone => ret tt
  | _ => ' (h, _) <- lift (pop0 hInfluentialObstacles) ;; artist_remove h
  end.

(** The obstacle map [main] builds and the line it draws for it. *)
Definition main_Map (inp : inputs) (cfg : config) : ndarray :=
  map (vmap (fun u => MapSize cfg * u)%float) (random_rand inp (nObstacles cfg)).

Definition obstacles_line (inp : inputs) (cfg : config) (id : handle) : Line2D :=
  mkline id (map vx (main_Map inp cfg)) (map vy (main_Map inp cfg)) "ro".

(** * Facts about binary64 arithmetic *)

Lemma eqb_not_ltb (x y : float) : (x =? y)%float = true -> (x <? y)%float = false.
Proof.
  rewrite FloatAxioms.eqb_spec, FloatAxioms.ltb_spec. unfold SFeqb, SFltb.
  destruct (SFcompare (Prim2SF x) (Prim2SF y)) as [[ | | ]|]; congruence.
Qed.

Lemma SFsub_self_finite (s : bool) (m : positive) (e : Z) :
  SF64sub (S754_finite s m e) (S754_finite s m e) = S754_zero false.
Proof.
  unfold SF64sub, SFsub.
  match goal with
  | |- binary_normalize _ _ (_ ?a ?a) _ _ = _ =>
      generalize a; intro z
  end.
  assert (Hz : (z - z)%Z = 0%Z) by apply Z.sub_diag.
  unfold binary_normalize. change (IntDef.Z.sub z z) with (z - z)%Z.
  rewrite Hz. reflexivity.
Qed.

Lemma Prim2SF_finite (x : float) :
  PrimFloat.is_finite x = true ->
  (exists s, Prim2SF x = S754_zero s) \/
  (exists s m e, Prim2SF x = S754_finite s m e).
Proof.
  unfold PrimFloat.is_finite. intros Hfin.
  apply negb_true_iff, orb_false_iff in Hfin. destruct Hfin as [Hnan Hinf].
  unfold Prim2SF. rewrite Hnan, Hinf.
  destruct (is_zero x); [left; eauto|].
  destruct (Z.frexp x) as [r ex].
  destruct (shr_fexp _ _ _ _ _) as [shr e'].
  destruct (shr_m shr); [left | right | left]; eauto.
Qed.

Lemma finite_sub_self (x : float) :
  PrimFloat.is_finite x = true -> (x - x)%float = 0%float.
Proof.
  intros Hfin.
  rewrite <- (SF2Prim_Prim2SF (x - x)), sub_spec.
  destruct (Prim2SF_finite x Hfin) as [[s ->] | (s & m & e & ->)].
  - destruct s; reflexivity.
  - rewrite SFsub_self_finite. reflexivity.
Qed.


(** * Facts about index arrays *)

Lemma where_from_length {A : Type} (f : A -> bool) (l : list A) (i : nat) :
  List.length (where_from i (map f l)) = List.length (filter f l).
Proof.
  revert i. induction l as [|a l IH]; intros i; simpl; [reflexivity|].
  destruct (f a); simpl; rewrite IH; reflexivity.
Qed.

Lemma In_where_from (mask : list bool) (s j : nat) :
  In j (where_from s mask) <->
  exists d, j = s + d /\ nth_error mask d = Some true.
Proof.
  revert s. induction mask as [|b mask IH]; intros s; simpl.
  - split; [tauto|]. intros (d & _ & H). destruct d; discriminate.
  - assert (Hrec : In j (where_from (S s) mask) <->
                   exists d, j = s + S d /\ nth_error mask d = Some true).
    { rewrite IH. split; intros (d & -> & H); exists d; split; auto; lia. }
    destruct b; simpl; rewrite Hrec; split.
    + intros [<- | (d & -> & H)]; [exists 0 | exists (S d)]; split; auto; lia.
    + intros ([|d] & -> & H); [left; lia | right; exists d; auto].
    + intros (d & -> & H). exists (S d). auto.
    + intros ([|d] & -> & H); [discriminate | exists d; auto].
Qed.

(** Indexing with the positions [np.where] found never leaves the array:
    it selects, in order, the elements at which the mask holds. *)
Lemma take_idx_where_from {A B : Type} (f : A -> bool) (g : A -> B)
    (pre l : list A) :
  take_idx (map g (pre ++ l)) (where_from (List.length pre) (map f l))
  = Ok (map g (filter f l)).
Proof.
  revert pre. induction l as [|a l IH]; intros pre; simpl; [reflexivity|].
  assert (Hrec : take_idx (map g (pre ++ a :: l))
                   (where_from (S (List.length pre)) (map f l))
                 = Ok (map g (filter f l))).
  { specialize (IH (pre ++ [a])).
    rewrite <- app_assoc, length_app, Nat.add_1_r in IH. exact IH. }
  destruct (f a); simpl; [|exact Hrec].
  rewrite nth_error_map, nth_error_app2, Nat.sub_diag by lia. simpl.
  rewrite Hrec. reflexivity.
Qed.

Lemma take_idx_where {A B : Type} (f : A -> bool) (g : A -> B) (l : list A) :
  take_idx (map g l) (np_where (map f l)) = Ok (map g (filter f l)).
Proof. exact (take_idx_where_from f g [] l). Qed.

Lemma take_idx_nth {A : Type} (a : list A) (idx : list nat) (l : list A) :
  take_idx a idx = Ok l ->
  forall j, nth_error l j
            = match nth_error idx j with
              | Some i => nth_error a i
              | None => None
              end.
Proof.
  revert l. induction idx as [|i idx IH]; simpl; intros l H j.
  - injection H as <-. destruct j; reflexivity.
  - destruct (nth_error a i) as [x|] eqn:Hi; [|discriminate].
    destruct (take_idx a idx) as [xs|e]; [|discriminate].
    injection H as <-. destruct j as [|j]; simpl; [auto|].
    apply IH. reflexivity.
Qed.

Lemma take_idx_length {A : Type} (a : list A) (idx : list nat) (l : list A) :
  take_idx a idx = Ok l -> List.length l = List.length idx.
Proof.
  revert l. induction idx as [|i idx IH]; simpl; intros l H.
  - injection H as <-. reflexivity.
  - destruct (nth_error a i); [|discriminate].
    destruct (take_idx a idx) as [xs|e]; [|discriminate].
    injection H as <-. simpl. rewrite (IH xs); reflexivity.
Qed.

(** * [repulsive_force] in closed form *)

Lemma rf_iInfluential_mask (xR : vec2) (Map : ndarray) (R : float) :
  rf_iInfluential xR Map R = np_where (map (influential xR R) Map).
Proof.
  unfold rf_iInfluential, rf_r, rf_q. rewrite !map_map. reflexivity.
Qed.

Lemma In_rf_iInfluential (xR : vec2) (Map : ndarray) (R : float) (i : nat) :
  In i (rf_iInfluential xR Map R) <->
  exists o, nth_error Map i = Some o /\ influential xR R o = true.
Proof.
  rewrite rf_iInfluential_mask. unfold np_where. rewrite In_where_from.
  split.
  - intros (d & -> & H). simpl. rewrite nth_error_map in H.
    destruct (nth_error Map d) as [o|]; [|discriminate].
    exists o. split; [reflexivity|]. simpl in H. congruence.
  - intros (o & Ho & Hinf). exists i. split; [reflexivity|].
    rewrite nth_error_map, Ho. simpl. congruence.
Qed.

Lemma rf_iInfluential_length (xR : vec2) (Map : ndarray) (R : float) :
  List.length (rf_iInfluential xR Map R)
  = List.length (filter (influential xR R) Map).
Proof.
  rewrite rf_iInfluential_mask. unfold np_where. apply where_from_length.
Qed.

Lemma rf_selected_eq (xR : vec2) (Map : ndarray) (R : float) :
  rf_selected xR Map R =
  Ok (map (vsub xR) (filter (influential xR R) Map),
      map (fun o => col_norm (vsub xR o)) (filter (influential xR R) Map)).
Proof.
  unfold rf_selected. rewrite rf_iInfluential_mask.
  unfold rf_r, rf_q. rewrite map_map, !take_idx_where. reflexivity.
Qed.

Lemma repulsive_force_eq (xR : vec2) (Map : ndarray) (R K : float) (w : world) :
  repulsive_force xR Map R K w =
  match filter (influential xR R) Map with
  | [] => (Ok (VNone, VNone), w)
  | _ :: _ => (Ok (VNone, VList [next_id w]),
               add_line (markers xR Map R (next_id w)) w)
  end.
Proof.
  unfold repulsive_force. cbv zeta. rewrite rf_iInfluential_length.
  destruct (filter (influential xR R) Map) as [|o close] eqn:Hclose;
    simpl List.length; cbv iota; [reflexivity|].
  change (0 <? S (List.length close))%nat with true. cbv iota.
  unfold bind, lift. rewrite rf_selected_eq, rf_iInfluential_mask.
  rewrite !take_idx_where. unfold plt_plot, ret, add_line, markers.
  rewrite Hclose. reflexivity.
Qed.

(** The call never raises, whatever the map. *)
Lemma repulsive_force_ok (xR : vec2) (Map : ndarray) (R K : float) (w : world) :
  exists h w', repulsive_force xR Map R K w = (Ok (VNone, h), w')
               /\ events w' = events w /\ suptitle w' = suptitle w.
Proof.
  rewrite repulsive_force_eq.
  destruct (filter (influential xR R) Map); eauto.
Qed.

(** * The control loop *)

Section SimulationFacts.

Context {E : Externals}.
Variable Map : ndarray.
Variable xGoal : vec2.
Variable cfg : config.

Lemma events_after_forces (st : loop_state) (w : world) :
  events (after_forces Map cfg st w)
  = events w ++ [CallRepulsive (xRobot st);
                 CallAttractive (KGoal cfg) (GoalError st)].
Proof.
  unfold after_forces.
  destruct (repulsive_force_ok (xRobot st) Map (RadiusOfInfluence cfg)
              (KObstacles cfg) (add_event (CallRepulsive (xRobot st)) w))
    as (h & w' & -> & Hev & _).
  simpl. rewrite Hev. simpl. rewrite <- app_assoc. reflexivity.
Qed.

(** No tick completes: [attractive_force] raises after the repulsive
    force has been computed and its markers drawn. *)
Lemma tick_raises (st : loop_state) (w : world) :
  tick Map xGoal cfg st w = (Raise TypeError, after_forces Map cfg st w).
Proof.
  unfold tick, after_forces, bind, emit.
  change (mkworld (lines w) (next_id w) (suptitle w)
            (events w ++ [CallRepulsive (xRobot st)]))
    with (add_event (CallRepulsive (xRobot st)) w).
  destruct (repulsive_force_ok (xRobot st) Map (RadiusOfInfluence cfg)
              (KObstacles cfg) (add_event (CallRepulsive (xRobot st)) w))
    as (h & w' & -> & _ & _).
  reflexivity.
Qed.

Lemma while_loop_S (fuel : nat) (st : loop_state) (w : world) :
  while_loop Map xGoal cfg (S fuel) st w =
  match linalg_norm (GoalError st) with
  | Raise e => (Raise e, w)
  | Ok n =>
      if negb (1 <? n)%float then (Ok (Some (Reached, st)), w)
      else if negb (k st <? nMaxSteps cfg)%Z
           then (Ok (Some (Exhausted, st)), w)
           else (Raise TypeError, after_forces Map cfg st w)
  end.
Proof.
  simpl. unfold bind, lift.
  destruct (linalg_norm (GoalError st)) as [n|e]; [|reflexivity].
  destruct (negb (1 <? n)%float); [reflexivity|].
  destruct (negb (k st <? nMaxSteps cfg)%Z); [reflexivity|].
  rewrite tick_raises. reflexivity.
Qed.

(** The fuel [simulation] passes is never used up: the loop always ends,
    by its condition or by an exception. *)
Lemma simulation_total (xStart : vec2) (hRob0 : value) (w : world) :
  fst (simulation Map xGoal cfg xStart hRob0 w) <> Ok None.
Proof.
  unfold simulation. rewrite while_loop_S.
  destruct (linalg_norm _) as [n|e]; [|discriminate].
  destruct (negb (1 <? n)%float); [discriminate|].
  destruct (negb _); discriminate.
Qed.

(** Every way a run of the loop can end. *)
Lemma simulation_outcomes (xStart : vec2) (hRob0 : value) (w : world) :
  let st0 := mkstate xStart (vsub xStart xGoal) 0 hRob0 in
  let run := simulation Map xGoal cfg xStart hRob0 w in
  run = (Ok (Some (Reached, st0)), w) \/
  (run = (Ok (Some (Exhausted, st0)), w) /\ (nMaxSteps cfg <= 0)%Z) \/
  (exists e, linalg_norm (vsub xStart xGoal) = Raise e /\ run = (Raise e, w)) \/
  (run = (Raise TypeError, after_forces Map cfg st0 w) /\ (0 < nMaxSteps cfg)%Z).
Proof.
  intros st0 run. subst run. unfold simulation. rewrite while_loop_S.
  fold st0. simpl GoalError.
  destruct (linalg_norm (vsub xStart xGoal)) as [n|e]; [|eauto 6].
  destruct (negb (1 <? _)%float); [auto|].
  simpl k. destruct (Z.ltb_spec 0 (nMaxSteps cfg)); simpl; auto.
Qed.


End SimulationFacts.

(** * The force functions on the notebook's inputs and in general *)

(** C10.  For every [KGoal] and every goal error, [attractive_force] returns
    no force: [FAtt] is [None], the in-place division [FAtt /= None] raises
    [TypeError], and the [return] is never reached. *)
Theorem attractive_force_always_raises (KGoal : float) (GoalError : vec2) :
  itruediv VNone VNone = Raise TypeError /\
  attractive_force KGoal GoalError = Raise TypeError.
Proof. split; reflexivity. Qed.

(** C2.  On the notebook's input ([KGoal = 1.5], goal error (2.3, 1.4)) the
    formula [- KGoal e / |e|] gives the expected output
    (-1.28129783, -0.77992042), but [attractive_force] raises [TypeError]
    instead of returning it. *)
Theorem attractive_force_try_it :
  attractive_force 1.5 try_GoalError = Raise TypeError /\
  close_to 1e-8 (vx (spec_attractive_force 1.5 try_GoalError)) (-1.28129783) = true /\
  close_to 1e-8 (vy (spec_attractive_force 1.5 try_GoalError)) (-0.77992042) = true.
Proof. repeat split; vm_compute; reflexivity. Qed.

(** C1.  On the notebook's input (robot (1,2), three obstacles, radius 2,
    gain 200) the obstacles found influential are exactly the two at
    distance below 2, and the formula of section 4.1 sums to the expected
    output (-7117.97589183, -14205.83001107); but the force
    [repulsive_force] returns is [None]. *)
Theorem repulsive_force_try_it :
  map (fun r => r <? 2)%float (rf_r (rf_q try_xRobot try_Map)) = [true; true; false] /\
  rf_iInfluential try_xRobot try_Map 2 = [0; 1] /\
  repulsive_force try_xRobot try_Map 2 200 empty_figure
  = (Ok (VNone, VList [0]),
     add_line (mkline 0 [1.1; 2.4]%float [2.2; 1.4]%float "kx") empty_figure) /\
  close_to 1e-6 (vx (spec_repulsive_force try_xRobot try_Map 2 200))
           (-7117.97589183) = true /\
  close_to 1e-6 (vy (spec_repulsive_force try_xRobot try_Map 2 200))
           (-14205.83001107) = true.
Proof. repeat split; vm_compute; reflexivity. Qed.

(** C3.  When no obstacle is within the radius of influence,
    [repulsive_force] returns [None] as the force (and as the handle) and
    draws nothing; [None] is not the zero vector. *)
Theorem repulsive_force_nothing_close (xR : vec2) (Map : ndarray)
    (R K : float) (w : world) :
  (forall o, In o Map -> influential xR R o = false) ->
  repulsive_force xR Map R K w = (Ok (VNone, VNone), w) /\
  VNone <> VArray [mkvec 0 0].
Proof.
  intros Hfar. split; [|discriminate].
  rewrite repulsive_force_eq.
  destruct (filter (influential xR R) Map) as [|o close] eqn:Hclose;
    [reflexivity|].
  assert (Ho : In o (filter (influential xR R) Map))
    by (rewrite Hclose; left; reflexivity).
  apply filter_In in Ho. destruct Ho as [Hin Hinf].
  rewrite (Hfar o Hin) in Hinf. discriminate.
Qed.

Lemma repulsive_force_nothing_close_witness :
  repulsive_force try_xRobot [mkvec 3.5 4.5] 2 200 empty_figure
  = (Ok (VNone, VNone), empty_figure) /\
  VNone <> VArray [mkvec 0 0].
Proof.
  apply (repulsive_force_nothing_close try_xRobot [mkvec 3.5 4.5] 2 200
           empty_figure).
  intros o [<- | []]. vm_compute. reflexivity.
Defined.

(** * The cutoff at the radius of influence *)

Lemma filter_delete {A : Type} (f : A -> bool) (l : list A) (i : nat) (o : A) :
  nth_error l i = Some o -> f o = false ->
  filter f (firstn i l ++ skipn (S i) l) = filter f l.
Proof.
  revert i. induction l as [|a l IH]; intros [|i] Hnth Ho; try discriminate.
  - injection Hnth as ->. simpl. rewrite Ho. reflexivity.
  - simpl in Hnth. specialize (IH i Hnth Ho).
    cbn [firstn skipn app filter] in *. rewrite IH. reflexivity.
Qed.

(** C4.  An obstacle whose distance to the robot equals
    [RadiusOfInfluence] fails the test [r < RadiusOfInfluence]: its index is
    not among the influential ones, and neither the columns of [q] and [r]
    the function keeps nor what the function returns and draws change when
    the obstacle is taken off the map.  An index is influential exactly
    when the distance is strictly below the radius. *)
Theorem boundary_obstacle_not_influential (xR : vec2) (Map : ndarray)
    (R K : float) (i : nat) (o : vec2) (w : world) :
  nth_error Map i = Some o ->
  (col_norm (vsub xR o) =? R)%float = true ->
  ~ In i (rf_iInfluential xR Map R) /\
  rf_selected xR Map R = rf_selected xR (delete_col i Map) R /\
  repulsive_force xR Map R K w = repulsive_force xR (delete_col i Map) R K w /\
  (forall j, In j (rf_iInfluential xR Map R) <->
             exists p, nth_error Map j = Some p /\
                       (col_norm (vsub xR p) <? R)%float = true).
Proof.
  intros Hnth Heq.
  assert (Hout : influential xR R o = false)
    by (unfold influential; apply eqb_not_ltb; exact Heq).
  assert (Hfilter : filter (influential xR R) (delete_col i Map)
                    = filter (influential xR R) Map)
    by (apply (filter_delete _ _ _ _ Hnth Hout)).
  repeat split.
  - rewrite In_rf_iInfluential. intros (p & Hp & Hin). congruence.
  - rewrite !rf_selected_eq, Hfilter. reflexivity.
  - rewrite !repulsive_force_eq. unfold markers. rewrite Hfilter. reflexivity.
  - apply In_rf_iInfluential.
  - apply In_rf_iInfluential.
Qed.

Lemma boundary_obstacle_not_influential_witness :
  ~ In 0 (rf_iInfluential (mkvec 0 0) [mkvec 2 0; mkvec 1 0] 2) /\
  rf_selected (mkvec 0 0) [mkvec 2 0; mkvec 1 0] 2
  = rf_selected (mkvec 0 0) (delete_col 0 [mkvec 2 0; mkvec 1 0]) 2 /\
  repulsive_force (mkvec 0 0) [mkvec 2 0; mkvec 1 0] 2 200 empty_figure
  = repulsive_force (mkvec 0 0) (delete_col 0 [mkvec 2 0; mkvec 1 0]) 2 200
      empty_figure /\
  (forall j, In j (rf_iInfluential (mkvec 0 0) [mkvec 2 0; mkvec 1 0] 2) <->
             exists p, nth_error [mkvec 2 0; mkvec 1 0] j = Some p /\
                       (col_norm (vsub (mkvec 0 0) p) <? 2)%float = true).
Proof.
  apply (boundary_obstacle_not_influential (mkvec 0 0)
           [mkvec 2 0; mkvec 1 0] 2 200 0 (mkvec 2 0) empty_figure).
  - reflexivity.
  - vm_compute. reflexivity.
Defined.

(** * Runs of the control loop *)

(** C6.  When the start position is the goal position, the goal error is
    the zero vector, its norm 0 is not above the tolerance, and the loop
    ends at once with status "reached": no tick runs, the robot stays where
    it is, and nothing is drawn or recorded, so [attractive_force] is not
    called at all. *)
Theorem start_at_goal_reached {E : Externals} (Map : ndarray) (cfg : config)
    (x : vec2) (hRob0 : value) (w : world) :
  PrimFloat.is_finite (vx x) = true ->
  PrimFloat.is_finite (vy x) = true ->
  linalg_norm (vsub x x) = Ok 0%float /\
  simulation Map x cfg x hRob0 w
  = (Ok (Some (Reached, mkstate x (mkvec 0 0) 0 hRob0)), w) /\
  events (snd (simulation Map x cfg x hRob0 w)) = events w.
Proof.
  intros Hx Hy.
  assert (Herr : vsub x x = mkvec 0 0)
    by (unfold vsub; rewrite (finite_sub_self _ Hx), (finite_sub_self _ Hy);
        reflexivity).
  assert (Hrun : simulation Map x cfg x hRob0 w
                 = (Ok (Some (Reached, mkstate x (mkvec 0 0) 0 hRob0)), w)).
  { unfold simulation. rewrite while_loop_S. cbn [GoalError].
    rewrite Herr, linalg_norm_zero. reflexivity. }
  repeat split.
  - rewrite Herr. apply linalg_norm_zero.
  - exact Hrun.
  - rewrite Hrun. reflexivity.
Qed.

Lemma start_at_goal_reached_witness :
  @linalg_norm marker_externals (vsub (mkvec 3 4) (mkvec 3 4)) = Ok 0%float /\
  @simulation marker_externals try_Map (mkvec 3 4) defaults (mkvec 3 4)
    (VList [0]) empty_figure
  = (Ok (Some (Reached, mkstate (mkvec 3 4) (mkvec 0 0) 0 (VList [0]))),
     empty_figure) /\
  events (snd (@simulation marker_externals try_Map (mkvec 3 4) defaults
                 (mkvec 3 4) (VList [0]) empty_figure))
  = events empty_figure.
Proof.
  apply (@start_at_goal_reached marker_externals try_Map defaults (mkvec 3 4)
           (VList [0]) empty_figure); reflexivity.
Defined.

(** C5.  The loop always ends, and a run for which [linalg.norm] returns a
    norm of the goal error above the tolerance 1, with a positive step
    budget, ends in neither of the two statuses: its first tick calls
    [repulsive_force], then [attractive_force], whose [TypeError] ends the
    run. *)
Theorem simulation_far_from_goal_raises {E : Externals} (Map : ndarray)
    (xGoal : vec2) (cfg : config) (xStart : vec2) (hRob0 : value) (w : world)
    (n : float) :
  linalg_norm (vsub xStart xGoal) = Ok n ->
  (1 <? n)%float = true ->
  (0 < nMaxSteps cfg)%Z ->
  fst (simulation Map xGoal cfg xStart hRob0 w) = Raise TypeError /\
  events (snd (simulation Map xGoal cfg xStart hRob0 w))
  = events w ++ [CallRepulsive xStart;
                 CallAttractive (KGoal cfg) (vsub xStart xGoal)].
Proof.
  intros Hn Hfar Hsteps.
  assert (Hrun : simulation Map xGoal cfg xStart hRob0 w
                 = (Raise TypeError,
                    after_forces Map cfg
                      (mkstate xStart (vsub xStart xGoal) 0 hRob0) w)).
  { unfold simulation. rewrite while_loop_S. simpl GoalError. rewrite Hn, Hfar.
    simpl k. apply Z.ltb_lt in Hsteps. rewrite Hsteps. reflexivity. }
  rewrite Hrun. split; [reflexivity|].
  simpl snd. rewrite events_after_forces. reflexivity.
Qed.

Lemma simulation_far_from_goal_raises_witness :
  fst (@simulation marker_externals [] (mkvec 10 0) defaults (mkvec 0 0)
         (VList [0]) empty_figure) = Raise TypeError /\
  events (snd (@simulation marker_externals [] (mkvec 10 0) defaults
                 (mkvec 0 0) (VList [0]) empty_figure))
  = events empty_figure ++ [CallRepulsive (mkvec 0 0);
                            CallAttractive (KGoal defaults)
                              (vsub (mkvec 0 0) (mkvec 10 0))].
Proof.
  apply (@simulation_far_from_goal_raises marker_externals [] (mkvec 10 0)
           defaults (mkvec 0 0) (VList [0]) empty_figure 10%float);
    reflexivity.
Defined.

(** C7.  No tick moves the robot.  The total force is left as [None] (the
    sum of [FAtt] and [FRep] is a TODO), so [xRobot += FTotal] raises
    [TypeError] whatever forces are passed on; and within a tick the call
    of [attractive_force] has raised before that line is reached. *)
Theorem tick_never_moves_robot {E : Externals} (Map : ndarray) (xGoal : vec2)
    (cfg : config) (FRep hInfluentialObstacles FAtt : value)
    (st : loop_state) (w : world) :
  iadd_column (xRobot st) VNone = Raise TypeError /\
  apply_forces xGoal cfg FRep hInfluentialObstacles FAtt st w
  = (Raise TypeError, w) /\
  fst (tick Map xGoal cfg st w) = Raise TypeError.
Proof.
  repeat split. rewrite tick_raises. reflexivity.
Qed.

(** * Degenerate distances *)




(** * Purity *)

(** C9, as stated, fails: on the notebook's input [repulsive_force] is not
    a pure function, it leaves a line of markers on the figure; and two
    calls in a row, on the same inputs, return two different handles. *)
Lemma repulsive_force_not_pure :
  ~ pure_call (repulsive_force try_xRobot try_Map 2 200) /\
  fst ((first <- repulsive_force try_xRobot try_Map 2 200 ;;
        second <- repulsive_force try_xRobot try_Map 2 200 ;;
        ret (snd first, snd second)) empty_figure)
  = Ok (VList [0], VList [1]).
Proof.
  split; [|reflexivity].
  intros [r Hr]. specialize (Hr empty_figure).
  vm_compute in Hr. discriminate.
Qed.

(** C9, amended.  [attractive_force] reads and writes no state.  The force
    [repulsive_force] returns is the same on every figure; its effect is to
    add, when some obstacle is influential, one line of markers over the
    influential obstacles, whose handle it returns, and to leave the figure
    alone (with [None] for a handle) otherwise. *)
Theorem force_functions_determinism (xR : vec2) (Map : ndarray) (R K : float)
    (KGoal : float) (GoalError : vec2) (w1 w2 : world) :
  pure_call (lift (attractive_force KGoal GoalError)) /\
  result_map fst (fst (repulsive_force xR Map R K w1))
  = result_map fst (fst (repulsive_force xR Map R K w2)) /\
  result_map snd (fst (repulsive_force xR Map R K w1))
  = Ok (if existsb (influential xR R) Map then VList [next_id w1] else VNone) /\
  snd (repulsive_force xR Map R K w1)
  = if existsb (influential xR R) Map
    then add_line (markers xR Map R (next_id w1)) w1
    else w1.
Proof.
  assert (Hex : existsb (influential xR R) Map
                = match filter (influential xR R) Map with
                  | [] => false
                  | _ :: _ => true
                  end).
  { induction Map as [|o Map IH]; simpl; [reflexivity|].
    destruct (influential xR R o); [reflexivity | exact IH]. }
  rewrite Hex, !repulsive_force_eq.
  repeat split.
  - exists (attractive_force KGoal GoalError). reflexivity.
  - destruct (filter (influential xR R) Map); reflexivity.
  - destruct (filter (influential xR R) Map); reflexivity.
  - destruct (filter (influential xR R) Map); reflexivity.
Qed.

(** * Whole runs of [main] *)

(** With the default parameters, a start at (10,10) and a goal at (80,80),
    [main] draws the map, the goal and the robot, enters the loop and is
    ended by the [TypeError] of the first tick. *)
Example main_default_run :
  fst (@main marker_externals (clicks [(10, 10)] [(80, 80)])%float defaults
         empty_figure) = Raise TypeError.
Proof. vm_compute. reflexivity. Qed.

(** The same run with the goal clicked on the start returns normally, the
    loop having ended as "reached" before its first tick. *)
Example main_goal_on_start :
  exists st w,
    @main marker_externals (clicks [(10, 10)] [(10, 10)])%float defaults
      empty_figure = (Ok (Some (Reached, st)), w)
    /\ k st = 0%Z /\ xRobot st = mkvec 10 10.
Proof. eexists. eexists. vm_compute. repeat split. Qed.

(** A [ginput] that times out returns no point, and [np.vstack] raises. *)
Example main_without_click :
  fst (@main marker_externals (clicks [] [(10, 10)])%float defaults
         empty_figure) = Raise ValueError.
Proof. vm_compute. reflexivity. Qed.

(** * Further facts about binary64 arithmetic *)

Lemma binary_round_aux_not_negative (m e : Z) (l : location) :
  sf_not_negative (binary_round_aux prec emax false m e l).
Proof.
  unfold binary_round_aux.
  destruct (shr_fexp prec emax m e l) as [mrs' e'].
  destruct (shr_fexp prec emax _ e' loc_Exact) as [mrs'' e''].
  destruct (shr_m mrs''); simpl; auto.
  destruct (Z.leb _ _); simpl; auto.
Qed.

(** A square root is a NaN or is not negative. *)
Lemma SFsqrt_not_negative (x : spec_float) : sf_not_negative (SF64sqrt x).
Proof.
  destruct x as [s | s | | s m e]; simpl; auto.
  - destruct s; simpl; auto.
  - destruct s; simpl; auto.
    destruct (SFsqrt_core_binary prec emax (Z.pos m) e) as [[mz ez] lz].
    apply binary_round_aux_not_negative.
Qed.

Lemma SFltb_not_negative (a R : spec_float) :
  sf_not_negative a -> SFltb a R = true -> SFltb (S754_zero false) R = true.
Proof.
  unfold SFltb.
  destruct a as [sa | sa | | sa ma ea], R as [sr | sr | | sr mr er];
    simpl; intros Ha H; subst; try discriminate; try reflexivity;
    try (destruct sr; try discriminate; reflexivity);
    try (destruct sa; try discriminate; reflexivity).
Qed.

(** Only a positive bound can exceed a distance. *)
Lemma col_norm_below_positive (c : vec2) (R : float) :
  (col_norm c <? R)%float = true -> (0 <? R)%float = true.
Proof.
  unfold col_norm. rewrite !FloatAxioms.ltb_spec, sqrt_spec.
  apply SFltb_not_negative, SFsqrt_not_negative.
Qed.

Lemma SFcompare_lt_le_trans (x y z : spec_float) :
  SFltb x y = true -> SFleb y z = true -> SFltb x z = true.
Proof.
  unfold SFltb, SFleb.
  destruct x as [sx | sx | | sx mx ex], y as [sy | sy | | sy my ey],
           z as [sz | sz | | sz mz ez];
    simpl; try discriminate; try reflexivity;
    try (destruct sx, sy; simpl; try discriminate; try reflexivity; fail);
    try (destruct sy, sz; simpl; try discriminate; try reflexivity; fail);
    try (destruct sx, sz; simpl; try discriminate; try reflexivity; fail);
    try (destruct sx, sy, sz; simpl; try discriminate; try reflexivity; fail).
  all: destruct sx, sy, sz; simpl; try discriminate; try reflexivity.
  all: change (PosDef.Pos.compare_cont Eq mx my) with (Pos.compare mx my);
    change (PosDef.Pos.compare_cont Eq my mz) with (Pos.compare my mz);
    change (PosDef.Pos.compare_cont Eq mx mz) with (Pos.compare mx mz);
    destruct (Z.compare_spec ex ey), (Z.compare_spec ey ez),
             (Z.compare_spec ex ez);
    try discriminate; try reflexivity; try lia; subst;
    destruct (Pos.compare_spec mx my), (Pos.compare_spec my mz),
             (Pos.compare_spec mx mz);
    simpl; try discriminate; try reflexivity; try lia.
Qed.

Lemma ltb_leb_trans (x y z : float) :
  (x <? y)%float = true -> (y <=? z)%float = true -> (x <? z)%float = true.
Proof.
  rewrite !FloatAxioms.ltb_spec, FloatAxioms.leb_spec.
  apply SFcompare_lt_le_trans.
Qed.

(** * Further facts about index arrays *)

Lemma where_from_sorted (mask : list bool) (s : nat) :
  StronglySorted lt (where_from s mask).
Proof.
  revert s. induction mask as [|b mask IH]; intros s; simpl; [constructor|].
  destruct b; [|apply IH].
  constructor; [apply IH|].
  apply Forall_forall. intros j Hj.
  apply In_where_from in Hj. destruct Hj as (d & -> & _). lia.
Qed.

(** * The selection of the influential obstacles *)

(** X1.  The index array [iInfluential] is strictly increasing and stays
    within the map, so the two fancy-indexing steps never raise: they keep
    one column of [q] and one entry of [r] per influential index, in the
    order of the indices, column [j] being the offset of the robot from
    obstacle [iInfluential[j]], every kept distance being below the radius
    and being the norm of the kept column. *)
Theorem selection_follows_indices (xR : vec2) (Map : ndarray) (R : float) :
  StronglySorted lt (rf_iInfluential xR Map R) /\
  Forall (fun i => i < List.length Map) (rf_iInfluential xR Map R) /\
  exists q' r',
    rf_selected xR Map R = Ok (q', r') /\
    List.length q' = List.length (rf_iInfluential xR Map R) /\
    r' = map col_norm q' /\
    Forall (fun ri => (ri <? R)%float = true) r' /\
    forall j i, nth_error (rf_iInfluential xR Map R) j = Some i ->
                exists o, nth_error Map i = Some o /\
                          nth_error q' j = Some (vsub xR o).
Proof.
  assert (Hbound : forall i, In i (rf_iInfluential xR Map R) ->
                             exists o, nth_error Map i = Some o).
  { intros i Hi. apply In_rf_iInfluential in Hi.
    destruct Hi as (o & Ho & _). eauto. }
  assert (Hq : take_idx (map (vsub xR) Map) (rf_iInfluential xR Map R)
               = Ok (map (vsub xR) (filter (influential xR R) Map)))
    by (rewrite rf_iInfluential_mask; apply take_idx_where).
  split; [|split].
  - unfold rf_iInfluential, np_where. apply where_from_sorted.
  - apply Forall_forall. intros i Hi. destruct (Hbound i Hi) as (o & Ho).
    apply nth_error_Some. congruence.
  - exists (map (vsub xR) (filter (influential xR R) Map)),
           (map (fun o => col_norm (vsub xR o)) (filter (influential xR R) Map)).
    split; [apply rf_selected_eq|].
    split; [apply (take_idx_length _ _ _ Hq)|].
    split; [rewrite map_map; reflexivity|].
    split.
    + apply Forall_forall. intros ri Hri. apply in_map_iff in Hri.
      destruct Hri as (o & <- & Ho). apply filter_In in Ho. apply Ho.
    + intros j i Hj. rewrite (take_idx_nth _ _ _ Hq j), Hj.
      destruct (Hbound i (nth_error_In _ _ Hj)) as (o & Ho).
      exists o. split; [exact Ho|].
      rewrite nth_error_map, Ho. reflexivity.
Qed.

(** * The radius of influence *)

(** X2.  Unless the radius of influence is positive (it is zero, negative
    or a NaN), no obstacle is influential, not even one at the robot's own
    position: the call returns [None] for the handle too and draws
    nothing.  The radius is not validated. *)
Theorem radius_not_positive_nothing_influential (xR : vec2) (Map : ndarray)
    (R K : float) (w : world) :
  (0 <? R)%float = false ->
  rf_iInfluential xR Map R = [] /\
  repulsive_force xR Map R K w = (Ok (VNone, VNone), w).
Proof.
  intros HR.
  assert (Hnone : filter (influential xR R) Map = []).
  { induction Map as [|o Map IH]; simpl; [reflexivity|].
    destruct (influential xR R o) eqn:Ho; [|exact IH].
    apply col_norm_below_positive in Ho. congruence. }
  split.
  - apply length_zero_iff_nil. rewrite rf_iInfluential_length, Hnone.
    reflexivity.
  - rewrite repulsive_force_eq, Hnone. reflexivity.
Qed.

Lemma radius_not_positive_nothing_influential_witness :
  rf_iInfluential try_xRobot (try_xRobot :: try_Map) 0 = [] /\
  repulsive_force try_xRobot (try_xRobot :: try_Map) 0 200 empty_figure
  = (Ok (VNone, VNone), empty_figure).
Proof.
  apply (radius_not_positive_nothing_influential try_xRobot
           (try_xRobot :: try_Map) 0 200 empty_figure).
  reflexivity.
Defined.

(** X3.  The influential set grows with the radius: an obstacle that is
    influential for a radius is influential for every larger radius, at the
    same index, and the number of influential obstacles does not drop. *)
Theorem influence_monotone_in_radius (xR : vec2) (Map : ndarray)
    (R1 R2 : float) :
  (R1 <=? R2)%float = true ->
  (forall i, In i (rf_iInfluential xR Map R1) ->
             In i (rf_iInfluential xR Map R2)) /\
  List.length (rf_iInfluential xR Map R1)
  <= List.length (rf_iInfluential xR Map R2).
Proof.
  intros Hle.
  assert (Hmono : forall o, influential xR R1 o = true ->
                            influential xR R2 o = true).
  { intros o Ho. unfold influential in *.
    exact (ltb_leb_trans _ _ _ Ho Hle). }
  split.
  - intros i Hi. apply In_rf_iInfluential in Hi.
    destruct Hi as (o & Ho & Hinf).
    apply In_rf_iInfluential. exists o. auto.
  - rewrite !rf_iInfluential_length.
    induction Map as [|o Map IH]; simpl; [lia|].
    destruct (influential xR R1 o) eqn:H1.
    + rewrite (Hmono o H1). simpl. lia.
    + destruct (influential xR R2 o); simpl; lia.
Qed.

Lemma influence_monotone_in_radius_witness :
  (forall i, In i (rf_iInfluential try_xRobot try_Map 1) ->
             In i (rf_iInfluential try_xRobot try_Map 2)) /\
  List.length (rf_iInfluential try_xRobot try_Map 1)
  <= List.length (rf_iInfluential try_xRobot try_Map 2).
Proof.
  apply (influence_monotone_in_radius try_xRobot try_Map 1 2).
  reflexivity.
Defined.

Lemma Prim2SF_nan (x : float) : is_nan x = true -> Prim2SF x = S754_nan.
Proof. intros H. unfold Prim2SF. rewrite H. reflexivity. Qed.

Lemma SFadd_nan_r (x : spec_float) : SF64add x S754_nan = S754_nan.
Proof. destruct x; reflexivity. Qed.

Lemma SFsub_nan_r (x : spec_float) : SF64sub x S754_nan = S754_nan.
Proof. destruct x; reflexivity. Qed.

(** A NaN among the coordinates makes the distance a NaN, which is below no
    radius. *)
Lemma influential_nan (xR o : vec2) (R : float) :
  (is_nan (vx xR) || is_nan (vy xR) || is_nan (vx o) || is_nan (vy o)) = true ->
  influential xR R o = false.
Proof.
  intros H. unfold influential, col_norm, vsub. cbn [vx vy].
  rewrite FloatAxioms.ltb_spec, sqrt_spec, add_spec, !mul_spec, !sub_spec.
  assert (Hsqrt : forall a b, a = S754_nan \/ b = S754_nan ->
            SFltb (SF64sqrt (SF64add (SF64mul a a) (SF64mul b b)))
                  (Prim2SF R) = false).
  { intros a b [-> | ->]; [reflexivity|].
    change (SF64mul S754_nan S754_nan) with S754_nan.
    rewrite SFadd_nan_r. reflexivity. }
  apply Hsqrt.
  apply orb_true_iff in H. destruct H as [H | H];
    [apply orb_true_iff in H; destruct H as [H | H];
     [apply orb_true_iff in H; destruct H as [H | H]|]|];
    rewrite (Prim2SF_nan _ H).
  - left. reflexivity.
  - right. reflexivity.
  - left. apply SFsub_nan_r.
  - right. apply SFsub_nan_r.
Qed.

(** X4.  A NaN among the coordinates of the robot or of an obstacle makes
    that obstacle's distance a NaN, and the obstacle is not influential
    whatever the radius: the NaN is not reported. *)
Theorem nan_coordinate_not_influential (xR : vec2) (Map : ndarray) (R : float)
    (i : nat) (o : vec2) :
  nth_error Map i = Some o ->
  (is_nan (vx xR) || is_nan (vy xR) || is_nan (vx o) || is_nan (vy o)) = true ->
  ~ In i (rf_iInfluential xR Map R).
Proof.
  intros Hnth Hnan Hin. apply In_rf_iInfluential in Hin.
  destruct Hin as (p & Hp & Hinf).
  assert (p = o) by congruence. subst p.
  rewrite (influential_nan xR o R Hnan) in Hinf. discriminate.
Qed.

Lemma nan_coordinate_not_influential_witness :
  ~ In 0 (rf_iInfluential (mkvec nan 2) try_Map 2).
Proof.
  apply (nan_coordinate_not_influential (mkvec nan 2) try_Map 2 0
           (mkvec 1.1 2.2)); reflexivity.
Defined.

(** * Markers on the figure *)

Lemma filter_fresh (n : handle) (ls : list Line2D) :
  Forall (fun l => line_id l < n) ls ->
  filter (fun l => negb (Nat.eqb (line_id l) n)) ls = ls.
Proof.
  induction 1 as [|l ls Hl _ IH]; simpl; [reflexivity|].
  destruct (Nat.eqb_spec (line_id l) n); [lia|]. simpl. rewrite IH.
  reflexivity.
Qed.

(** X5.  On a figure whose lines carry handles already given out, what
    [repulsive_force] draws is undone by the loop's
    [hInfluentialObstacles.pop(0).remove()]: the removal never raises (also
    when the handle is [None]), and afterwards the figure shows the lines it
    showed before the call, with its title and its record unchanged. *)
Theorem markers_drawn_then_removed (xR : vec2) (Map : ndarray) (R K : float)
    (w : world) :
  fresh_ids w ->
  exists w',
    (p <- repulsive_force xR Map R K ;; remove_markers (snd p)) w = (Ok tt, w')
    /\ lines w' = lines w /\ suptitle w' = suptitle w
    /\ events w' = events w /\ fresh_ids w'.
Proof.
  intros Hw. unfold bind. rewrite repulsive_force_eq.
  destruct (filter (influential xR R) Map) as [|o close].
  - exists w. repeat split; assumption.
  - cbn [snd remove_markers]. unfold bind, lift, pop0, artist_remove.
    cbn [lines add_line next_id suptitle events].
    assert (Hfound : existsb (fun l => Nat.eqb (line_id l) (next_id w))
                       (lines w ++ [markers xR Map R (next_id w)]) = true).
    { rewrite existsb_app. apply orb_true_iff. right. simpl.
      rewrite Nat.eqb_refl. reflexivity. }
    rewrite Hfound. eexists. split; [reflexivity|].
    cbn [lines suptitle events next_id].
    rewrite filter_app, (filter_fresh _ _ Hw). simpl.
    rewrite Nat.eqb_refl. simpl. rewrite app_nil_r.
    repeat split.
    unfold fresh_ids. cbn [lines next_id].
    apply Forall_impl with (2 := Hw). intros l Hl. lia.
Qed.

Lemma markers_drawn_then_removed_witness :
  exists w',
    (p <- repulsive_force try_xRobot try_Map 2 200 ;; remove_markers (snd p))
      empty_figure = (Ok tt, w')
    /\ lines w' = lines empty_figure /\ suptitle w' = suptitle empty_figure
    /\ events w' = events empty_figure /\ fresh_ids w'.
Proof.
  apply (markers_drawn_then_removed try_xRobot try_Map 2 200 empty_figure).
  constructor.
Defined.

(** * Exits of the loop before its first tick *)

(** X6.  When the norm [linalg.norm] returns for the initial goal error is
    not above 1 (the value 1 included) or the step budget is zero or
    negative, the loop ends before its first tick: no force function is
    called, nothing is drawn, the robot keeps its start position and
    [k = 0].  The exit is "reached" whenever the returned norm is not above
    1, also with no budget; it is "exhausted" only for a norm above 1. *)
Theorem loop_exit_without_tick {E : Externals} (Map : ndarray) (xGoal : vec2)
    (cfg : config) (xStart : vec2) (hRob0 : value) (w : world) (n : float) :
  linalg_norm (vsub xStart xGoal) = Ok n ->
  (1 <? n)%float = false \/ (nMaxSteps cfg <= 0)%Z ->
  simulation Map xGoal cfg xStart hRob0 w
  = (Ok (Some (if (1 <? n)%float then Exhausted else Reached,
               mkstate xStart (vsub xStart xGoal) 0 hRob0)), w).
Proof.
  intros Hn Hexit. unfold simulation. rewrite while_loop_S.
  cbn [GoalError k]. rewrite Hn.
  destruct (1 <? n)%float; [|reflexivity].
  destruct Hexit as [Hnear | Hbudget]; [discriminate|].
  cbn [negb]. destruct (Z.ltb_spec 0 (nMaxSteps cfg)); [lia | reflexivity].
Qed.

Lemma loop_exit_without_tick_witness :
  @simulation marker_externals try_Map (mkvec 10 0)
    (mkconfig 175 100 10 1 250 0 true) (mkvec 0 0) (VList [0]) empty_figure
  = (Ok (Some (if (1 <? 10)%float then Exhausted else Reached,
               mkstate (mkvec 0 0) (vsub (mkvec 0 0) (mkvec 10 0)) 0
                 (VList [0]))), empty_figure).
Proof.
  apply (@loop_exit_without_tick marker_externals try_Map (mkvec 10 0)
           (mkconfig 175 100 10 1 250 0 true) (mkvec 0 0) (VList [0])
           empty_figure 10%float).
  - reflexivity.
  - right. simpl. lia.
Defined.

(** * [main] without a click *)

(** X7.  When one of the two [ginput] calls returns no point, [main] ends
    with the [ValueError] of [np.vstack]: by then only the obstacles are on
    the new figure (no goal marker, no robot), the start has been printed
    only if it was clicked, and the loop has not been entered. *)
Theorem main_missing_click {E : Externals} (inp : inputs) (cfg : config)
    (w : world) :
  click_start inp = [] \/ click_goal inp = [] ->
  fst (main inp cfg w) = Raise ValueError /\
  lines (snd (main inp cfg w)) = [obstacles_line inp cfg (next_id w)] /\
  events (snd (main inp cfg w))
  = events w ++ match vstack_T (click_start inp) with
                | Ok xStart => [Stdout "Starts at:" xStart]
                | Raise _ => []
                end.
Proof.
  intros Hclick.
  unfold main, bind, plt_subplots, plt_plot, set_suptitle, emit, lift.
  cbn [lines next_id suptitle events app].
  destruct (click_start inp) as [|[x y] rest] eqn:Hstart; cbn [vstack_T].
  - cbn [fst snd lines events]. rewrite app_nil_r. repeat split.
  - destruct Hclick as [Hs | Hgoal]; [discriminate|].
    rewrite Hgoal. cbn [vstack_T fst snd lines events]. repeat split.
Qed.

Lemma main_missing_click_witness :
  fst (@main marker_externals (clicks [(10, 10)] [])%float defaults
         empty_figure) = Raise ValueError /\
  lines (snd (@main marker_externals (clicks [(10, 10)] [])%float defaults
                empty_figure))
  = [obstacles_line (clicks [(10, 10)] [])%float defaults
       (next_id empty_figure)] /\
  events (snd (@main marker_externals (clicks [(10, 10)] [])%float defaults
                 empty_figure))
  = events empty_figure
    ++ match vstack_T (click_start (clicks [(10, 10)] [])%float) with
       | Ok xStart => [Stdout "Starts at:" xStart]
       | Raise _ => []
       end.
Proof.
  apply (@main_missing_click marker_externals (clicks [(10, 10)] [])%float
           defaults empty_figure).
  right. reflexivity.
Defined.

(** * Obstacles out of the radius *)

Lemma filter_twice {A : Type} (f : A -> bool) (l : list A) :
  filter f (filter f l) = filter f l.
Proof.
  induction l as [|a l IH]; simpl; [reflexivity|].
  destruct (f a) eqn:Ha; simpl; [rewrite Ha, IH|]; auto.
Qed.

(** X8.  Only the obstacles within the radius matter: on the map cut down
    to its influential obstacles the call keeps the same columns of [q] and
    [r], returns the same values and draws the same markers as on the whole
    map, and there every obstacle is influential. *)
Theorem far_obstacles_have_no_effect (xR : vec2) (Map : ndarray) (R K : float)
    (w : world) :
  rf_selected xR (filter (influential xR R) Map) R = rf_selected xR Map R /\
  repulsive_force xR (filter (influential xR R) Map) R K w
  = repulsive_force xR Map R K w /\
  rf_iInfluential xR (filter (influential xR R) Map) R
  = seq 0 (List.length (rf_iInfluential xR Map R)).
Proof.
  split; [|split].
  - rewrite !rf_selected_eq, filter_twice. reflexivity.
  - rewrite !repulsive_force_eq. unfold markers. rewrite filter_twice.
    reflexivity.
  - rewrite rf_iInfluential_length, rf_iInfluential_mask. unfold np_where.
    assert (Hall : forall l s,
              Forall (fun o => influential xR R o = true) l ->
              where_from s (map (influential xR R) l)
              = seq s (List.length l)).
    { induction l as [|o l IH]; intros s Hl; simpl; [reflexivity|].
      inversion Hl as [|? ? Ho Hl']; subst. rewrite Ho, (IH (S s) Hl').
      reflexivity. }
    apply Hall. apply Forall_forall. intros o Ho.
    apply filter_In in Ho. apply Ho.
Qed.

(** * The tolerance boundary and the rounding of the norm *)

(** Two starts about one unit from the goal (0,0).  For the first the norm
    is 1 when every operation rounds and just above 1 with a fused dot
    product, for the second it is the other way round; the loop ends at once
    in the one case and runs into its first tick in the other.  The
    theorems above hold for the norm as the library returns it. *)
Example boundary_start_fused_above :
  @linalg_norm marker_externals (mkvec 0.1925395428878588 0.9812892154836589)
  = Ok 1%float /\
  @linalg_norm fused_externals (mkvec 0.1925395428878588 0.9812892154836589)
  = Ok 1.0000000000000002%float /\
  fst (@simulation marker_externals [] (mkvec 0 0) defaults
         (mkvec 0.1925395428878588 0.9812892154836589) (VList [0])
         empty_figure)
  = Ok (Some (Reached,
              mkstate (mkvec 0.1925395428878588 0.9812892154836589)
                (mkvec 0.1925395428878588 0.9812892154836589) 0 (VList [0]))) /\
  fst (@simulation fused_externals [] (mkvec 0 0) defaults
         (mkvec 0.1925395428878588 0.9812892154836589) (VList [0])
         empty_figure)
  = Raise TypeError.
Proof. repeat split; vm_compute; reflexivity. Qed.

Example boundary_start_fused_on :
  @linalg_norm marker_externals (mkvec 0.4803694971171382 0.8770662154247124)
  = Ok 1.0000000000000002%float /\
  @linalg_norm fused_externals (mkvec 0.4803694971171382 0.8770662154247124)
  = Ok 1%float /\
  fst (@simulation marker_externals [] (mkvec 0 0) defaults
         (mkvec 0.4803694971171382 0.8770662154247124) (VList [0])
         empty_figure)
  = Raise TypeError /\
  fst (@simulation fused_externals [] (mkvec 0 0) defaults
         (mkvec 0.4803694971171382 0.8770662154247124) (VList [0])
         empty_figure)
  = Ok (Some (Reached,
              mkstate (mkvec 0.4803694971171382 0.8770662154247124)
                (mkvec 0.4803694971171382 0.8770662154247124) 0 (VList [0]))).
Proof. repeat split; vm_compute; reflexivity. Qed.
